(** * Payroll department (lab3): a shallow embedding of the registry core

    The C++ program keeps a registry of named work types.  Every work type
    has a base pay and a bonus strategy; the registry validates what it is
    given, refuses duplicates, lists its entries and averages their final
    pay.  The model below follows the source class by class:

    - [double] is the binary64 type of the kernel ([PrimFloat.float]) with
      its IEEE 754 operations and comparisons, so that [NaN], signed zeros
      and rounding behave as they do in the compiled program, every
      operation being rounded to binary64 on its own (no extended
      precision, no fused multiply-add);
    - [std::string] is [string], a sequence of [char]s, compared byte by
      byte, whose [size()] is [String.length];
    - a C++ exception is a value of [PayrollException] carried by
      [Thrown]; a method of [PayrollDepartment] is a function from the
      registry to what it wrote on the streams, its result and the registry
      it leaves behind. *)

From Stdlib Require Import Floats ZArith String List Bool Arith Lia Uint63.
Import ListNotations.

Set Warnings "-inexact-float".
Local Open Scope string_scope.

(** ** Exceptions *)

Inductive PayrollException : Type :=
| InvalidRateException (msg : string)
| DuplicateWorkTypeException (msg : string)
| EmptyWorkListException (msg : string).

(** [what()]: every class prefixes the message it is built from. *)
Definition what (e : PayrollException) : string :=
  match e with
  | InvalidRateException msg => "Invalid rate: " ++ msg
  | DuplicateWorkTypeException msg => "Duplicate work type: " ++ msg
  | EmptyWorkListException msg => "Work list is empty: " ++ msg
  end.

(** The dynamic class of an exception, which is what a [catch] clause and
    the specification's error kinds distinguish. *)
Inductive ErrorKind : Type := InvalidRate | DuplicateWorkType | EmptyWorkList.

Definition kind (e : PayrollException) : ErrorKind :=
  match e with
  | InvalidRateException _ => InvalidRate
  | DuplicateWorkTypeException _ => DuplicateWorkType
  | EmptyWorkListException _ => EmptyWorkList
  end.

(** A computation that either returns or throws. *)
Inductive result (A : Type) : Type :=
| Ok (a : A)
| Thrown (e : PayrollException).
Arguments Ok {A} a.
Arguments Thrown {A} e.

Definition succeeded {A} (r : result A) : bool :=
  match r with Ok _ => true | Thrown _ => false end.

(** [fails_with k r]: [r] is an exception of class [k]. *)
Definition fails_with {A} (k : ErrorKind) (r : result A) : Prop :=
  exists e, r = Thrown e /\ kind e = k.

(** ** Bonus strategies *)

(** The two classes that implement [IBonusStrategy]. *)
Inductive IBonusStrategy : Type :=
| NoBonusStrategy
| PercentageBonusStrategy (bonusPercent : float).

(** The constructor [PercentageBonusStrategy(double percent)]. *)
Definition new_PercentageBonusStrategy (percent : float) : result IBonusStrategy :=
  if (percent <? 0)%float then
    Thrown (InvalidRateException "bonus percent must be >= 0")
  else if (100 <? percent)%float then
    Thrown (InvalidRateException "bonus percent cannot exceed 100%")
  else Ok (PercentageBonusStrategy percent).

(** The virtual method [computePay], dispatched on the class. *)
Definition computePay (s : IBonusStrategy) (basePay : float) : float :=
  match s with
  | NoBonusStrategy => basePay
  | PercentageBonusStrategy bonusPercent =>
      (basePay * (1 + bonusPercent / 100))%float
  end.

(** ** Work types *)

Record WorkTypeBase : Type := mkWorkTypeBase {
  getName : string;
  getBasePay : float;
  bonusStrategy : IBonusStrategy
}.

Definition getFinalPay (w : WorkTypeBase) : float :=
  computePay (bonusStrategy w) (getBasePay w).

(** [std::string::empty]. *)
Definition empty (s : string) : bool :=
  match s with EmptyString => true | String _ _ => false end.

(** The constructor [WorkTypeBase(name, basePay, strategy)]; a null
    [shared_ptr] is [None]. *)
Definition new_WorkTypeBase (name : string) (basePay : float)
    (strategy : option IBonusStrategy) : result WorkTypeBase :=
  if empty name then
    Thrown (InvalidRateException "work type name must not be empty")
  else if (basePay <=? 0)%float then
    Thrown (InvalidRateException "base pay must be > 0")
  else if (1000000 <? basePay)%float then
    Thrown (InvalidRateException "base pay cannot exceed 1,000,000")
  else
    match strategy with
    | None => Thrown (InvalidRateException "bonus strategy must not be null")
    | Some s => Ok (mkWorkTypeBase name basePay s)
    end.

(** ** The registry *)

Record PayrollDepartment : Type := mkPayrollDepartment {
  workTypes : list WorkTypeBase
}.

(** [PayrollDepartment() = default]. *)
Definition new_PayrollDepartment : PayrollDepartment :=
  mkPayrollDepartment [].

(** What a method writes.  Text goes out as it is; a [double] sent to
    [cout] is kept as the number, its rendering being the stream's. *)
Inductive Output : Type :=
| Cerr (text : string)
| Cout (text : string)
| CoutDouble (x : float).

(** One call of a method: the stream output in order, the result, and the
    registry after the call (an exception leaves whatever was done before
    it was thrown). *)
Record Run (A : Type) : Type := mkRun {
  trace : list Output;
  outcome : result A;
  final : PayrollDepartment
}.
Arguments mkRun {A} trace outcome final.
Arguments trace {A} r.
Arguments outcome {A} r.
Arguments final {A} r.

Definition Method (A : Type) : Type := PayrollDepartment -> Run A.

Definition ret {A} (a : A) : Method A :=
  fun d => mkRun [] (Ok a) d.

Definition bind {A B} (m : Method A) (k : A -> Method B) : Method B :=
  fun d =>
    let r := m d in
    match outcome r with
    | Ok a =>
        let r' := k a (final r) in
        mkRun (trace r ++ trace r') (outcome r') (final r')
    | Thrown e => mkRun (trace r) (Thrown e) (final r)
    end.

Definition throw {A} (e : PayrollException) : Method A :=
  fun d => mkRun [] (Thrown e) d.

Definition write (o : Output) : Method unit :=
  fun d => mkRun [o] (Ok tt) d.

(** A constructor called inside a method: its exception propagates. *)
Definition construct {A} (r : result A) : Method A :=
  fun d => mkRun [] r d.

Definition read_workTypes : Method (list WorkTypeBase) :=
  fun d => mkRun [] (Ok (workTypes d)) d.

(** [workTypes.push_back(wt)]. *)
Definition push_back (wt : WorkTypeBase) : Method unit :=
  fun d => mkRun [] (Ok tt) (mkPayrollDepartment (workTypes d ++ [wt])).

Declare Scope method_scope.
Delimit Scope method_scope with method.
Notation "x <- m ;; k" := (bind m (fun x => k))
  (at level 61, m at next level, right associativity) : method_scope.
Notation "m ;; k" := (bind m (fun _ => k))
  (at level 61, right associativity) : method_scope.
Local Open Scope method_scope.

(** [if (c) { m }] with no [else]. *)
Definition when (c : bool) (m : Method unit) : Method unit :=
  if c then m else ret tt.

(** The loop of [existsWorkType], which returns at the first match. *)
Fixpoint existsWorkType_in (ws : list WorkTypeBase) (name : string) : bool :=
  match ws with
  | [] => false
  | w :: rest =>
      if String.eqb (getName w) name then true
      else existsWorkType_in rest name
  end.

Definition existsWorkType (name : string) : Method bool :=
  ws <- read_workTypes ;;
  ret (existsWorkType_in ws name).

(** ['\n']. *)
Definition newline : string := String (Ascii.ascii_of_nat 10) "".

Definition long_name_warning : string :=
  "Предупреждение: название типа работ очень длинное" ++ newline.

(** [addWorkType], with the constructor it calls for a non-zero bonus as
    [new_strategy], so that one can say which calls reach it. *)
Definition addWorkType_with (new_strategy : float -> result IBonusStrategy)
    (name : string) (basePay bonusPercent : float) : Method unit :=
  when (50 <? String.length name)%nat (write (Cerr long_name_warning)) ;;
  dup <- existsWorkType name ;;
  (if dup then
     throw (DuplicateWorkTypeException
              ("work type '" ++ name ++ "' already exists"))
   else ret tt) ;;
  strategy <-
    (if (bonusPercent =? 0)%float then ret NoBonusStrategy
     else
       (if (100 <? bonusPercent)%float then
          throw (InvalidRateException "bonus percent cannot exceed 100%")
        else ret tt) ;;
       construct (new_strategy bonusPercent)) ;;
  wt <- construct (new_WorkTypeBase name basePay (Some strategy)) ;;
  push_back wt.

(** The method of the source: the strategy is a
    [make_shared<PercentageBonusStrategy>(bonusPercent)]. *)
Definition addWorkType : string -> float -> float -> Method unit :=
  addWorkType_with new_PercentageBonusStrategy.

(** [static_cast<double>(workTypes.size())]: a [size_t] converted to
    [double], rounded to nearest when it is not representable. *)
Definition size_as_double (ws : list WorkTypeBase) : float :=
  of_uint63 (Uint63.of_Z (Z.of_nat (List.length ws))).

(** The accumulation loop of [calculateAveragePay], started at [sum]. *)
Definition sum_finalPay (ws : list WorkTypeBase) (sum : float) : float :=
  fold_left (fun sum w => (sum + getFinalPay w)%float) ws sum.

Definition calculateAveragePay : Method float :=
  ws <- read_workTypes ;;
  (if match ws with [] => true | _ => false end then
     throw (EmptyWorkListException "cannot calculate average")
   else ret tt) ;;
  let sum := sum_finalPay ws 0%float in
  ret (sum / size_as_double ws)%float.

Definition empty_list_notice : string :=
  "Список типов работ пуст." ++ newline.

Definition list_header : string :=
  "Текущие типы работ:" ++ newline.

(** The body of the loop of [printAll]: one line for one entry. *)
Definition print_entry (w : WorkTypeBase) : Method unit :=
  write (Cout "  - ") ;;
  write (Cout (getName w)) ;;
  write (Cout " | базовая оплата: ") ;;
  write (CoutDouble (getBasePay w)) ;;
  write (Cout " | с надбавкой: ") ;;
  write (CoutDouble (getFinalPay w)) ;;
  write (Cout newline).

Fixpoint print_entries (ws : list WorkTypeBase) : Method unit :=
  match ws with
  | [] => ret tt
  | w :: rest => print_entry w ;; print_entries rest
  end.

Definition printAll : Method unit :=
  ws <- read_workTypes ;;
  if match ws with [] => true | _ => false end then
    write (Cout empty_list_notice)
  else
    write (Cout list_header) ;;
    print_entries ws.

(** ** The session

    [main] reads a choice, performs one operation on the one registry it
    owns, catches whatever the operation throws and goes on. *)

Inductive Operation : Type :=
| AddWorkType (name : string) (basePay bonusPercent : float)
| PrintAll
| CalculateAveragePay.

(** The registry after one turn of the loop. *)
Definition perform (op : Operation) (d : PayrollDepartment)
  : PayrollDepartment :=
  match op with
  | AddWorkType name basePay bonusPercent =>
      final (addWorkType name basePay bonusPercent d)
  | PrintAll => final (printAll d)
  | CalculateAveragePay => final (calculateAveragePay d)
  end.

Definition session (ops : list Operation) (d : PayrollDepartment)
  : PayrollDepartment :=
  fold_left (fun d op => perform op d) ops d.

(** ** Notions of the specification *)

(** The registry invariant: no two entries share a name. *)
Definition names (d : PayrollDepartment) : list string :=
  map getName (workTypes d).

Definition unique_names (d : PayrollDepartment) : Prop := NoDup (names d).

(** What [listAll] yields for one entry, and for the registry. *)
Definition triple (w : WorkTypeBase) : string * float * float :=
  (getName w, getBasePay w, getFinalPay w).

Definition listAll (d : PayrollDepartment) : list (string * float * float) :=
  map triple (workTypes d).

(** The line [printAll] writes for a triple. *)
Definition line (t : string * float * float) : list Output :=
  let '(name, basePay, finalPay) := t in
  [Cout "  - "; Cout name; Cout " | базовая оплата: "; CoutDouble basePay;
   Cout " | с надбавкой: "; CoutDouble finalPay; Cout newline].

(** The arithmetic mean of a sequence of pays: their sum, taken from zero
    in the order of the sequence, over their number. *)
Definition arithmetic_mean (pays : list float) : float :=
  (fold_left PrimFloat.add pays 0 /
   of_uint63 (Uint63.of_Z (Z.of_nat (List.length pays))))%float.

(** The advisory [addWorkType] writes for [name], if any. *)
Definition advisory (name : string) : list Output :=
  if (50 <? String.length name)%nat then [Cerr long_name_warning] else [].

(** The registries a session can be in. *)
Definition reachable (d : PayrollDepartment) : Prop :=
  exists ops, d = session ops new_PayrollDepartment.

(** ** The sign of a [double]

    [sign_clear x] holds when [x] is not negative and is not the negative
    zero: its sign bit is clear, or it is a [NaN]. *)
Definition SFsign_clear (x : spec_float) : bool :=
  match x with
  | S754_zero s | S754_infinity s | S754_finite s _ _ => negb s
  | S754_nan => true
  end.

Definition sign_clear (x : float) : bool := SFsign_clear (Prim2SF x).

(** Every final pay in the registry has its sign bit clear. *)
Definition pays_sign_clear (d : PayrollDepartment) : Prop :=
  Forall (fun w => sign_clear (getFinalPay w) = true) (workTypes d).

(** ** Sample data *)

(** One entry with no bonus, then one with a bonus of 50%. *)
Definition sample_ops : list Operation :=
  [AddWorkType "Loader" 100 0; AddWorkType "Welder" 200 50].

(** A name of 51 [char]s. *)
Definition long_name : string :=
  "Assembly and final inspection of hydraulic cylinder".

(** A name of 50 [char]s. *)
Definition name_of_50 : string :=
  "Assembly and final inspection of hydraulic pistons".

(** * Facts about binary64 arithmetic

    The constants of the program are exact, and multiplying or dividing by
    one, or adding to zero, does not round. *)
Section Binary64.

Local Open Scope Z_scope.

Lemma Prim2SF_zero : Prim2SF 0 = S754_zero false.
Proof. vm_compute. reflexivity. Qed.

Lemma Prim2SF_one : Prim2SF 1 = S754_finite false 4503599627370496 (-52).
Proof. vm_compute. reflexivity. Qed.

Lemma bounded_inv m e :
  bounded prec emax m e = true ->
  fexp prec emax (Zpos (digits2_pos m) + e) = e /\ e <= emax - prec.
Proof.
  unfold bounded, canonical_mantissa. intros H.
  apply andb_true_iff in H. destruct H as [H1 H2].
  apply Z.eqb_eq in H1. apply Z.leb_le in H2. now split.
Qed.

(** The exponent function at an argument equal to that of a canonical
    mantissa. *)
Ltac fexp_canonical e Hc :=
  match goal with
  | |- context [fexp prec emax ?a] =>
      replace (fexp prec emax a) with e by (rewrite <- Hc at 1; f_equal; lia)
  end.

(** Once the mantissa is in place, rounding keeps it. *)
Ltac round_in_place e Hc Hb :=
  cbn [Zdigits2]; fexp_canonical e Hc;
  replace (IntDef.Z.sub e e) with 0 by lia;
  cbn [shr shr_record_of_loc shr_m];
  replace (IntDef.Z.leb e (IntDef.Z.sub emax prec)) with true
    by (symmetry; apply Z.leb_le; exact Hb);
  reflexivity.

Lemma round_canonical s m e :
  bounded prec emax m e = true ->
  binary_round_aux prec emax s (Zpos m) e loc_Exact = S754_finite s m e.
Proof.
  intros H. destruct (bounded_inv _ _ H) as [Hc Hb].
  unfold binary_round_aux, shr_fexp. cbn [Zdigits2]. fexp_canonical e Hc.
  replace (IntDef.Z.sub e e) with 0 by lia.
  cbn [shr shr_record_of_loc shr_m loc_of_shr_record round_nearest_even].
  round_in_place e Hc Hb.
Qed.

Lemma SFmul_one x :
  valid_binary x = true ->
  SF64mul x (S754_finite false 4503599627370496 (-52)) = x.
Proof.
  destruct x as [s|s| |s m e]; simpl; intros H;
    rewrite ?xorb_false_r; try reflexivity.
  destruct (bounded_inv _ _ H) as [Hc Hb].
  rewrite Pos.mul_comm.
  unfold binary_round_aux, shr_fexp.
  cbn [Pos.mul Zdigits2 digits2_pos shr_record_of_loc].
  rewrite !Pos2Z.inj_succ.
  fexp_canonical e Hc.
  replace (IntDef.Z.sub e (IntDef.Z.add e (-52))) with 52 by lia.
  cbn [shr iter_pos shr_1 fst snd shr_m loc_of_shr_record
       round_nearest_even shr_r shr_s orb].
  replace (IntDef.Z.add (IntDef.Z.add e (-52)) 52) with e by lia.
  round_in_place e Hc Hb.
Qed.

Lemma div_eucl_exact a b q :
  0 < b -> a = q * b -> Z.div_eucl a b = (q, 0).
Proof.
  intros Hb Ha. generalize (Z_div_mod a b ltac:(lia)).
  destruct (Z.div_eucl a b) as [q' r]. intros [E Hr].
  assert (q' = q) by nia. subst q'. f_equal. nia.
Qed.

(** Dividing a canonical mantissa by one yields it back, shifted by one
    bit when the quotient's exponent is one less. *)
Lemma SFdiv_core_one m e :
  bounded prec emax m e = true ->
  SFdiv_core_binary prec emax (Zpos m) e 4503599627370496 (-52)
    = (Zpos m, e, loc_Exact) \/
  SFdiv_core_binary prec emax (Zpos m) e 4503599627370496 (-52)
    = (Zpos m~0, e - 1, loc_Exact).
Proof.
  intros H. destruct (bounded_inv _ _ H) as [Hc Hb].
  unfold SFdiv_core_binary.
  change (Zdigits2 4503599627370496) with 53.
  cbn [Zdigits2].
  set (e' := IntDef.Z.min _ _).
  assert (He' : e' = e \/ e' = e - 1).
  { subst e'. revert Hc. unfold fexp, SpecFloat.emin, prec, emax. lia. }
  clearbody e'. destruct He' as [-> | ->].
  - left. replace (IntDef.Z.sub (IntDef.Z.sub e (-52)) e) with 52 by lia.
    cbv iota beta.
    replace (IntDef.Z.div_eucl (IntDef.Z.shiftl (Zpos m) 52) 4503599627370496)
      with (Zpos m, 0); [reflexivity|].
    symmetry. apply div_eucl_exact; [lia|].
    rewrite Z.shiftl_mul_pow2 by lia. reflexivity.
  - right. replace (IntDef.Z.sub (IntDef.Z.sub e (-52)) (e - 1)) with 53 by lia.
    cbv iota beta.
    replace (IntDef.Z.div_eucl (IntDef.Z.shiftl (Zpos m) 53) 4503599627370496)
      with (Zpos m~0, 0); [reflexivity|].
    symmetry. apply div_eucl_exact; [lia|].
    rewrite Z.shiftl_mul_pow2 by lia.
    change (2 ^ 53) with (2 * 4503599627370496). lia.
Qed.

Lemma SFdiv_one x :
  valid_binary x = true ->
  SF64div x (S754_finite false 4503599627370496 (-52)) = x.
Proof.
  destruct x as [s|s| |s m e]; simpl; intros H;
    rewrite ?xorb_false_r; try reflexivity.
  destruct (SFdiv_core_one m e H) as [E | E].
  - change (Z.pos 4503599627370496) with 4503599627370496 in *.
    rewrite E. apply round_canonical, H.
  - rewrite E. destruct (bounded_inv _ _ H) as [Hc Hb].
    unfold binary_round_aux, shr_fexp.
    cbn [Zdigits2 digits2_pos shr_record_of_loc].
    rewrite !Pos2Z.inj_succ.
    fexp_canonical e Hc.
    replace (IntDef.Z.sub e (e - 1)) with 1 by lia.
    cbn [shr iter_pos shr_1 fst snd shr_m loc_of_shr_record
         round_nearest_even shr_r shr_s orb].
    replace (IntDef.Z.add (e - 1) 1) with e by lia.
    round_in_place e Hc Hb.
Qed.

Lemma round_sign_clear mx ex lx :
  SFsign_clear (binary_round_aux prec emax false mx ex lx) = true.
Proof.
  unfold binary_round_aux.
  destruct (shr_fexp prec emax mx ex lx) as [mrs' e'].
  destruct (shr_fexp prec emax _ e' loc_Exact) as [mrs'' e''].
  destruct (shr_m mrs''); [reflexivity| |reflexivity].
  destruct (IntDef.Z.leb e'' _); reflexivity.
Qed.

Lemma SFmul_sign_clear x y :
  SFsign_clear x = true -> SFsign_clear y = true ->
  SFsign_clear (SF64mul x y) = true.
Proof.
  destruct x as [[]|[]| |[] mx ex], y as [[]|[]| |[] my ey];
    simpl; try discriminate; try reflexivity.
  intros _ _. apply round_sign_clear.
Qed.

Lemma SFdiv_sign_clear x y :
  SFsign_clear x = true -> SFsign_clear y = true ->
  SFsign_clear (SF64div x y) = true.
Proof.
  destruct x as [[]|[]| |[] mx ex], y as [[]|[]| |[] my ey];
    simpl; try discriminate; try reflexivity.
  intros _ _.
  destruct (SFdiv_core_binary prec emax (Z.pos mx) ex (Z.pos my) ey)
    as [[mz ez] lz].
  apply round_sign_clear.
Qed.

Lemma SFadd_sign_clear x y :
  SFsign_clear x = true -> SFsign_clear y = true ->
  SFsign_clear (SF64add x y) = true.
Proof.
  destruct x as [[]|[]| |[] mx ex], y as [[]|[]| |[] my ey];
    simpl; try discriminate; try reflexivity.
  intros _ _. unfold binary_round.
  destruct (shl_align _ _ _) as [mz ez]. apply round_sign_clear.
Qed.

End Binary64.

Lemma mul_one_r (x : float) : (x * 1)%float = x.
Proof.
  apply Prim2SF_inj. rewrite FloatAxioms.mul_spec, Prim2SF_one.
  apply SFmul_one, Prim2SF_valid.
Qed.

Lemma div_one_r (x : float) : (x / 1)%float = x.
Proof.
  apply Prim2SF_inj. rewrite FloatAxioms.div_spec, Prim2SF_one.
  apply SFdiv_one, Prim2SF_valid.
Qed.

Lemma sign_clear_mul x y :
  sign_clear x = true -> sign_clear y = true -> sign_clear (x * y) = true.
Proof. unfold sign_clear. rewrite FloatAxioms.mul_spec. apply SFmul_sign_clear. Qed.

Lemma sign_clear_div x y :
  sign_clear x = true -> sign_clear y = true -> sign_clear (x / y) = true.
Proof. unfold sign_clear. rewrite FloatAxioms.div_spec. apply SFdiv_sign_clear. Qed.

Lemma sign_clear_add x y :
  sign_clear x = true -> sign_clear y = true -> sign_clear (x + y) = true.
Proof. unfold sign_clear. rewrite FloatAxioms.add_spec. apply SFadd_sign_clear. Qed.

Create HintDb binary64.
#[local] Hint Resolve sign_clear_mul sign_clear_div sign_clear_add : binary64.

(** What the comparisons of the constructors leave through. *)
Lemma not_leb_zero_sign_clear x :
  (x <=? 0)%float = false -> sign_clear x = true.
Proof.
  unfold sign_clear. rewrite FloatAxioms.leb_spec, Prim2SF_zero.
  destruct (Prim2SF x) as [[]|[]| |[] m e]; cbv; congruence.
Qed.

Lemma not_ltb_zero_sign_clear x :
  (x =? 0)%float = false -> (x <? 0)%float = false -> sign_clear x = true.
Proof.
  unfold sign_clear.
  rewrite FloatAxioms.eqb_spec, FloatAxioms.ltb_spec, Prim2SF_zero.
  destruct (Prim2SF x) as [[]|[]| |[] m e]; cbv; congruence.
Qed.

Lemma add_zero_l x : sign_clear x = true -> (0 + x)%float = x.
Proof.
  unfold sign_clear. intros H. apply Prim2SF_inj.
  rewrite FloatAxioms.add_spec, Prim2SF_zero.
  destruct (Prim2SF x) as [[]|[]| |[] m e]; simpl in *; congruence.
Qed.

(** [x == 0.0] holds of the two zeros only. *)
Lemma eqb_zero x : (x =? 0)%float = true -> x = 0%float \/ x = neg_zero.
Proof.
  rewrite FloatAxioms.eqb_spec, Prim2SF_zero. intros H.
  destruct (Prim2SF x) as [[]|[]| |[] m e] eqn:E; simpl in H;
    try discriminate.
  - right. rewrite <- (SF2Prim_Prim2SF x), E. reflexivity.
  - left. rewrite <- (SF2Prim_Prim2SF x), E. reflexivity.
Qed.

Lemma ltb_zero_neq x : (0 <? x)%float = true -> (x =? 0)%float = false.
Proof.
  rewrite FloatAxioms.eqb_spec, FloatAxioms.ltb_spec, Prim2SF_zero.
  destruct (Prim2SF x) as [[]|[]| |[] m e]; cbv; congruence.
Qed.

Lemma ltb_zero_neq_l x : (x <? 0)%float = true -> (x =? 0)%float = false.
Proof.
  rewrite FloatAxioms.eqb_spec, FloatAxioms.ltb_spec, Prim2SF_zero.
  destruct (Prim2SF x) as [[]|[]| |[] m e]; cbv; congruence.
Qed.

Lemma SFcompare_swap x y :
  SFcompare y x = option_map CompOpp (SFcompare x y).
Proof.
  destruct x as [[]|[]| |[] m e], y as [[]|[]| |[] m' e']; try reflexivity;
    simpl; rewrite (Z.compare_antisym e e');
    destruct (e ?= e')%Z; simpl; try reflexivity;
    rewrite (Pos.compare_cont_antisym m m' Eq); simpl;
    destruct (Pos.compare_cont Eq m m'); reflexivity.
Qed.

Lemma leb_not_ltb x y : (x <=? y)%float = true -> (y <? x)%float = false.
Proof.
  rewrite FloatAxioms.leb_spec, FloatAxioms.ltb_spec.
  unfold SFleb, SFltb. rewrite (SFcompare_swap (Prim2SF x) (Prim2SF y)).
  destruct (SFcompare (Prim2SF x) (Prim2SF y)) as [[]|]; simpl; congruence.
Qed.

Lemma SFcompare_None x y :
  SFcompare x y = None -> x = S754_nan \/ y = S754_nan.
Proof.
  destruct x as [[]|[]| |[] m e], y as [[]|[]| |[] m' e']; simpl;
    auto; discriminate.
Qed.

Lemma is_nan_false x : is_nan x = false -> Prim2SF x <> S754_nan.
Proof.
  unfold is_nan. rewrite FloatAxioms.eqb_spec. intros H E.
  rewrite E in H. discriminate H.
Qed.

(** Numbers are totally ordered: only a [NaN] is neither below nor at
    least. *)
Lemma not_ltb_leb x y :
  is_nan x = false -> is_nan y = false ->
  (x <? y)%float = false -> (y <=? x)%float = true.
Proof.
  intros Hx Hy. apply is_nan_false in Hx, Hy.
  rewrite FloatAxioms.leb_spec, FloatAxioms.ltb_spec.
  unfold SFleb, SFltb. rewrite (SFcompare_swap (Prim2SF x) (Prim2SF y)).
  destruct (SFcompare (Prim2SF x) (Prim2SF y)) as [[]|] eqn:E; simpl;
    try congruence.
  destruct (SFcompare_None _ _ E); contradiction.
Qed.

(** Above a number that is not negative there is no negative number. *)
Lemma ltb_sign_clear x y :
  sign_clear x = true -> (x <? y)%float = true -> (y <? 0)%float = false.
Proof.
  unfold sign_clear. rewrite !FloatAxioms.ltb_spec, Prim2SF_zero.
  unfold SFltb.
  destruct (Prim2SF x) as [[]|[]| |[] m e], (Prim2SF y) as [[]|[]| |[] m' e'];
    simpl; congruence.
Qed.

(** * What one call does *)

(** The goal is that an explicit exception is of the class it is of. *)
Ltac throws := eexists; split; reflexivity.

Lemma existsWorkType_in_iff ws name :
  existsWorkType_in ws name = true <-> In name (map getName ws).
Proof.
  induction ws as [|w rest IH]; simpl.
  - split; [discriminate | contradiction].
  - destruct (String.eqb_spec (getName w) name) as [E|E].
    + split; auto.
    + rewrite IH. split; [auto | intros [H|H]; [contradiction | assumption]].
Qed.

Lemma existsWorkType_run name d :
  existsWorkType name d = mkRun [] (Ok (existsWorkType_in (workTypes d) name)) d.
Proof. reflexivity. Qed.

(** [addWorkType] writes its advisory first and then takes one of five
    ways out, four of them exceptions that leave the registry alone. *)
Lemma addWorkType_with_run new_strategy name basePay bonusPercent d :
  addWorkType_with new_strategy name basePay bonusPercent d =
  if existsWorkType_in (workTypes d) name then
    mkRun (advisory name)
      (Thrown (DuplicateWorkTypeException
                 ("work type '" ++ name ++ "' already exists"))) d
  else
    let finish strategy :=
      match new_WorkTypeBase name basePay (Some strategy) with
      | Ok wt =>
          mkRun (advisory name) (Ok tt)
            (mkPayrollDepartment (workTypes d ++ [wt]))
      | Thrown e => mkRun (advisory name) (Thrown e) d
      end in
    if (bonusPercent =? 0)%float then finish NoBonusStrategy
    else if (100 <? bonusPercent)%float then
      mkRun (advisory name)
        (Thrown (InvalidRateException "bonus percent cannot exceed 100%")) d
    else
      match new_strategy bonusPercent with
      | Ok strategy => finish strategy
      | Thrown e => mkRun (advisory name) (Thrown e) d
      end.
Proof.
  unfold addWorkType_with, advisory, when, bind, existsWorkType.
  destruct (50 <? String.length name)%nat; simpl;
    destruct (existsWorkType_in (workTypes d) name); simpl; try reflexivity;
    destruct (bonusPercent =? 0)%float; simpl;
    try (destruct (100 <? bonusPercent)%float; simpl; try reflexivity;
         destruct (new_strategy bonusPercent); simpl; try reflexivity);
    destruct (new_WorkTypeBase name basePay _); reflexivity.
Qed.

Lemma calculateAveragePay_run d :
  calculateAveragePay d =
  mkRun []
    match workTypes d with
    | [] => Thrown (EmptyWorkListException "cannot calculate average")
    | _ :: _ =>
        Ok (sum_finalPay (workTypes d) 0 / size_as_double (workTypes d))%float
    end d.
Proof.
  unfold calculateAveragePay, bind. simpl.
  destruct (workTypes d); reflexivity.
Qed.

Lemma print_entry_run w d :
  print_entry w d = mkRun (line (triple w)) (Ok tt) d.
Proof. reflexivity. Qed.

Lemma print_entries_run ws d :
  print_entries ws d = mkRun (flat_map line (map triple ws)) (Ok tt) d.
Proof.
  induction ws as [|w rest IH]; [reflexivity|].
  change (print_entries (w :: rest)) with
    (bind (print_entry w) (fun _ => print_entries rest)).
  unfold bind. rewrite print_entry_run. cbn [outcome final trace].
  rewrite IH. reflexivity.
Qed.

Lemma printAll_run d :
  printAll d =
  mkRun
    match workTypes d with
    | [] => [Cout empty_list_notice]
    | _ :: _ => Cout list_header :: flat_map line (listAll d)
    end (Ok tt) d.
Proof.
  unfold printAll, listAll, bind. simpl.
  destruct (workTypes d) as [|w rest]; [reflexivity|].
  unfold bind. cbn [write outcome final trace].
  rewrite print_entries_run. reflexivity.
Qed.

Lemma new_WorkTypeBase_ok name basePay strategy w :
  new_WorkTypeBase name basePay strategy = Ok w ->
  empty name = false /\ (basePay <=? 0)%float = false /\
  (1000000 <? basePay)%float = false /\
  exists s, strategy = Some s /\ w = mkWorkTypeBase name basePay s.
Proof.
  unfold new_WorkTypeBase.
  destruct (empty name); [discriminate|].
  destruct (basePay <=? 0)%float; [discriminate|].
  destruct (1000000 <? basePay)%float; [discriminate|].
  destruct strategy as [s|]; [|discriminate].
  intros [= <-]. repeat split. now exists s.
Qed.

Lemma new_PercentageBonusStrategy_ok percent s :
  new_PercentageBonusStrategy percent = Ok s ->
  (percent <? 0)%float = false /\ (100 <? percent)%float = false /\
  s = PercentageBonusStrategy percent.
Proof.
  unfold new_PercentageBonusStrategy.
  destruct (percent <? 0)%float; [discriminate|].
  destruct (100 <? percent)%float; [discriminate|].
  intros [= <-]. now repeat split.
Qed.

(** The entry a successful [addWorkType] stores, and why it succeeded. *)
Lemma addWorkType_ok_inv name basePay bonusPercent d :
  outcome (addWorkType name basePay bonusPercent d) = Ok tt ->
  existsWorkType_in (workTypes d) name = false /\
  empty name = false /\ (basePay <=? 0)%float = false /\
  (1000000 <? basePay)%float = false /\
  exists s,
    final (addWorkType name basePay bonusPercent d) =
      mkPayrollDepartment (workTypes d ++ [mkWorkTypeBase name basePay s]) /\
    (((bonusPercent =? 0)%float = true /\ s = NoBonusStrategy) \/
     ((bonusPercent =? 0)%float = false /\ (bonusPercent <? 0)%float = false /\
      (100 <? bonusPercent)%float = false /\
      s = PercentageBonusStrategy bonusPercent)).
Proof.
  unfold addWorkType. rewrite addWorkType_with_run. cbv zeta.
  destruct (existsWorkType_in (workTypes d) name); [discriminate|].
  destruct (bonusPercent =? 0)%float eqn:E0.
  - destruct (new_WorkTypeBase name basePay (Some NoBonusStrategy))
      as [w|e] eqn:Ew; [|discriminate].
    intros _. apply new_WorkTypeBase_ok in Ew.
    destruct Ew as (Hn & Hl & Hu & s & [= <-] & ->).
    repeat split; auto. exists NoBonusStrategy. split; [reflexivity | left; auto].
  - destruct (100 <? bonusPercent)%float eqn:E100; [discriminate|].
    destruct (new_PercentageBonusStrategy bonusPercent) as [s|e] eqn:Es;
      [|discriminate].
    apply new_PercentageBonusStrategy_ok in Es. destruct Es as (Hneg & _ & ->).
    destruct (new_WorkTypeBase name basePay _) as [w|e] eqn:Ew; [|discriminate].
    intros _. apply new_WorkTypeBase_ok in Ew.
    destruct Ew as (Hn & Hl & Hu & s & [= <-] & ->).
    repeat split; auto. exists (PercentageBonusStrategy bonusPercent).
    split; [reflexivity | right; auto].
Qed.

(** A call that throws leaves the registry as it found it. *)
Lemma addWorkType_thrown_final new_strategy name basePay bonusPercent d :
  succeeded (outcome (addWorkType_with new_strategy name basePay bonusPercent d))
    = false ->
  final (addWorkType_with new_strategy name basePay bonusPercent d) = d.
Proof.
  rewrite addWorkType_with_run. cbv zeta.
  repeat match goal with
         | |- context [if ?c then _ else _] => destruct c
         | |- context [match ?c with Ok _ => _ | Thrown _ => _ end] => destruct c
         end; simpl; congruence.
Qed.

Lemma addWorkType_trace new_strategy name basePay bonusPercent d :
  trace (addWorkType_with new_strategy name basePay bonusPercent d)
    = advisory name.
Proof.
  rewrite addWorkType_with_run. cbv zeta.
  repeat match goal with
         | |- context [if ?c then _ else _] => destruct c
         | |- context [match ?c with Ok _ => _ | Thrown _ => _ end] => destruct c
         end; reflexivity.
Qed.

(** The final pay of a stored entry, from the bonus it was added with: on
    the no-bonus path the product below is by one, which is exact. *)
Lemma stored_finalPay name basePay bonusPercent s :
  ((bonusPercent =? 0)%float = true /\ s = NoBonusStrategy) \/
  ((bonusPercent =? 0)%float = false /\ (bonusPercent <? 0)%float = false /\
   (100 <? bonusPercent)%float = false /\
   s = PercentageBonusStrategy bonusPercent) ->
  getFinalPay (mkWorkTypeBase name basePay s)
    = (basePay * (1 + bonusPercent / 100))%float.
Proof.
  unfold getFinalPay. simpl.
  intros [[E ->] | (_ & _ & _ & ->)]; [|reflexivity].
  simpl. destruct (eqb_zero _ E) as [-> | ->].
  - change (1 + 0 / 100)%float with 1%float. now rewrite mul_one_r.
  - change (1 + neg_zero / 100)%float with 1%float. now rewrite mul_one_r.
Qed.

Lemma addWorkType_appends name basePay bonusPercent d :
  outcome (addWorkType name basePay bonusPercent d) = Ok tt ->
  exists w,
    workTypes (final (addWorkType name basePay bonusPercent d))
      = (workTypes d ++ [w])%list /\
    triple w = (name, basePay, (basePay * (1 + bonusPercent / 100))%float).
Proof.
  intros H.
  destruct (addWorkType_ok_inv _ _ _ _ H) as (_ & _ & _ & _ & s & -> & Hs).
  exists (mkWorkTypeBase name basePay s). split; [reflexivity|].
  unfold triple. now rewrite (stored_finalPay _ _ _ _ Hs).
Qed.

(** * Properties of the registry *)

(** C1. After every successful [addWorkType(name, basePay, bonusPercent)]
    the entry appended to the registry has a final pay equal to
    [basePay * (1 + bonusPercent / 100)], computed by the strategy with no
    other rounding: a zero bonus binds the no-bonus strategy and the final
    pay is [basePay] itself; a bonus in (0, 100] binds the percentage
    strategy, whose result is that product. *)
Theorem addWorkType_finalPay name basePay bonusPercent d :
  outcome (addWorkType name basePay bonusPercent d) = Ok tt ->
  exists w,
    workTypes (final (addWorkType name basePay bonusPercent d))
      = (workTypes d ++ [w])%list /\
    getName w = name /\ getBasePay w = basePay /\
    getFinalPay w = (basePay * (1 + bonusPercent / 100))%float /\
    ((bonusPercent =? 0)%float = true ->
     bonusStrategy w = NoBonusStrategy /\ getFinalPay w = basePay) /\
    ((0 <? bonusPercent)%float = true -> (bonusPercent <=? 100)%float = true ->
     bonusStrategy w = PercentageBonusStrategy bonusPercent /\
     getFinalPay w = (basePay * (1 + bonusPercent / 100))%float).
Proof.
  intros H.
  destruct (addWorkType_ok_inv _ _ _ _ H) as (_ & _ & _ & _ & s & -> & Hs).
  exists (mkWorkTypeBase name basePay s).
  split; [reflexivity|]. split; [reflexivity|]. split; [reflexivity|].
  split; [now apply stored_finalPay|].
  split.
  - intros E. destruct Hs as [[_ ->] | (E' & _)]; [now split | congruence].
  - intros Hpos _. apply ltb_zero_neq in Hpos.
    destruct Hs as [[E _] | (_ & _ & _ & ->)]; [congruence | now split].
Qed.

Lemma addWorkType_finalPay_witness :
  outcome (addWorkType "Welder" 200 50 new_PayrollDepartment) = Ok tt /\
  exists w,
    workTypes (final (addWorkType "Welder" 200 50 new_PayrollDepartment))
      = (workTypes new_PayrollDepartment ++ [w])%list /\
    getName w = "Welder" /\ getBasePay w = 200%float /\
    getFinalPay w = (200 * (1 + 50 / 100))%float /\
    ((50 =? 0)%float = true ->
     bonusStrategy w = NoBonusStrategy /\ getFinalPay w = 200%float) /\
    ((0 <? 50)%float = true -> (50 <=? 100)%float = true ->
     bonusStrategy w = PercentageBonusStrategy 50 /\
     getFinalPay w = (200 * (1 + 50 / 100))%float).
Proof.
  split; [reflexivity|].
  apply (addWorkType_finalPay "Welder" 200 50 new_PayrollDepartment).
  reflexivity.
Defined.

(** * Sessions *)

(** A property that every operation preserves holds throughout. *)
Lemma session_invariant (P : PayrollDepartment -> Prop) :
  (forall op d, P d -> P (perform op d)) ->
  forall ops d, P d -> P (session ops d).
Proof.
  intros Hstep ops. induction ops as [|op ops IH]; intros d Hd.
  - exact Hd.
  - simpl. apply IH, Hstep, Hd.
Qed.

Lemma reachable_invariant (P : PayrollDepartment -> Prop) :
  P new_PayrollDepartment ->
  (forall op d, P d -> P (perform op d)) ->
  forall d, reachable d -> P d.
Proof.
  intros H0 Hstep d [ops ->]. now apply session_invariant.
Qed.

Lemma perform_query op d :
  op = PrintAll \/ op = CalculateAveragePay -> perform op d = d.
Proof.
  intros [-> | ->]; cbn [perform].
  - now rewrite printAll_run.
  - now rewrite calculateAveragePay_run.
Qed.

(** One turn of the loop keeps the registry or appends one entry. *)
Lemma perform_cases op d :
  perform op d = d \/
  exists name basePay bonusPercent s,
    op = AddWorkType name basePay bonusPercent /\
    outcome (addWorkType name basePay bonusPercent d) = Ok tt /\
    perform op d =
      mkPayrollDepartment (workTypes d ++ [mkWorkTypeBase name basePay s]) /\
    (((bonusPercent =? 0)%float = true /\ s = NoBonusStrategy) \/
     ((bonusPercent =? 0)%float = false /\ (bonusPercent <? 0)%float = false /\
      (100 <? bonusPercent)%float = false /\
      s = PercentageBonusStrategy bonusPercent)).
Proof.
  destruct op as [name basePay bonusPercent| |].
  - cbn [perform].
    destruct (outcome (addWorkType name basePay bonusPercent d)) as [[]|e] eqn:E.
    + right. destruct (addWorkType_ok_inv _ _ _ _ E) as (_ & _ & _ & _ & s & F & Hs).
      exists name, basePay, bonusPercent, s. auto.
    + left. apply addWorkType_thrown_final.
      change (succeeded (outcome (addWorkType name basePay bonusPercent d)) = false).
      now rewrite E.
  - left. apply perform_query. auto.
  - left. apply perform_query. auto.
Qed.

(** The final pay of an entry that went through both constructors. *)
Lemma stored_finalPay_sign_clear name basePay bonusPercent s d :
  outcome (addWorkType name basePay bonusPercent d) = Ok tt ->
  ((bonusPercent =? 0)%float = true /\ s = NoBonusStrategy) \/
  ((bonusPercent =? 0)%float = false /\ (bonusPercent <? 0)%float = false /\
   (100 <? bonusPercent)%float = false /\
   s = PercentageBonusStrategy bonusPercent) ->
  sign_clear (getFinalPay (mkWorkTypeBase name basePay s)) = true.
Proof.
  intros H Hs.
  destruct (addWorkType_ok_inv _ _ _ _ H) as (_ & _ & Hpos & _).
  apply not_leb_zero_sign_clear in Hpos.
  unfold getFinalPay. simpl.
  destruct Hs as [[_ ->] | (E0 & Hneg & _ & ->)]; simpl; [exact Hpos|].
  pose proof (not_ltb_zero_sign_clear _ E0 Hneg) as Hbonus.
  assert (H1 : sign_clear 1 = true) by reflexivity.
  assert (H100 : sign_clear 100 = true) by reflexivity.
  auto with binary64.
Qed.

Lemma reachable_pays_sign_clear d : reachable d -> pays_sign_clear d.
Proof.
  apply reachable_invariant.
  - constructor.
  - intros op d' Hd'.
    destruct (perform_cases op d') as [-> | (n & b & p & s & _ & Hok & -> & Hs)];
      [exact Hd'|].
    unfold pays_sign_clear. simpl. apply Forall_app. split; [exact Hd'|].
    constructor; [|constructor].
    eapply stored_finalPay_sign_clear; eassumption.
Qed.

Lemma sum_finalPay_fold ws sum :
  sum_finalPay ws sum = fold_left PrimFloat.add (map getFinalPay ws) sum.
Proof.
  revert sum. induction ws as [|w rest IH]; intros sum; [reflexivity|].
  simpl. apply IH.
Qed.

(** C2. [calculateAveragePay] throws [EmptyWorkListException] exactly when
    the registry is empty.  On a registry with entries it returns the
    arithmetic mean of their final pays, the sum over the count, as it is
    (nothing rounds it afterwards): on a registry of one entry that is the
    entry's final pay, and on a base pay of 100 with no bonus followed by a
    base pay of 200 with a bonus of 50% it is (100 + 300) / 2 = 200. *)
Theorem calculateAveragePay_mean d :
  (fails_with EmptyWorkList (outcome (calculateAveragePay d))
     <-> workTypes d = []) /\
  (workTypes d <> [] ->
   outcome (calculateAveragePay d)
     = Ok (arithmetic_mean (map getFinalPay (workTypes d)))) /\
  (forall w, reachable d -> workTypes d = [w] ->
   outcome (calculateAveragePay d) = Ok (getFinalPay w)) /\
  map getFinalPay (workTypes (session sample_ops new_PayrollDepartment))
    = [100%float; 300%float] /\
  outcome (calculateAveragePay (session sample_ops new_PayrollDepartment))
    = Ok 200%float.
Proof.
  rewrite calculateAveragePay_run. cbn [outcome].
  split; [|split; [|split; [|split]]].
  - destruct (workTypes d) as [|w rest]; split.
    + reflexivity.
    + intros _. throws.
    + intros (e & [=] & _).
    + discriminate.
  - destruct (workTypes d) as [|w rest]; [congruence|]. intros _.
    unfold arithmetic_mean, size_as_double.
    now rewrite sum_finalPay_fold, length_map.
  - intros w Hr Hw. apply reachable_pays_sign_clear in Hr.
    unfold pays_sign_clear in Hr. rewrite Hw in *.
    apply Forall_inv in Hr. f_equal. unfold sum_finalPay. simpl.
    rewrite add_zero_l by exact Hr.
    change (size_as_double [w]) with 1%float. apply div_one_r.
  - reflexivity.
  - reflexivity.
Qed.

Lemma calculateAveragePay_mean_witness :
  let d := session [AddWorkType "Welder" 200 50] new_PayrollDepartment in
  let w := mkWorkTypeBase "Welder" 200 (PercentageBonusStrategy 50) in
  (workTypes d <> [] /\ reachable d /\ workTypes d = [w]) /\
  outcome (calculateAveragePay d)
    = Ok (arithmetic_mean (map getFinalPay (workTypes d))) /\
  outcome (calculateAveragePay d) = Ok (getFinalPay w).
Proof.
  intros d w.
  assert (Hne : workTypes d <> []) by discriminate.
  assert (Hr : reachable d) by (now exists [AddWorkType "Welder" 200 50]).
  assert (Hw : workTypes d = [w]) by reflexivity.
  destruct (calculateAveragePay_mean d) as (_ & Hmean & Hone & _).
  split; [now repeat split|].
  split; [exact (Hmean Hne) | exact (Hone w Hr Hw)].
Defined.

Lemma calculateAveragePay_final d : final (calculateAveragePay d) = d.
Proof. now rewrite calculateAveragePay_run. Qed.

Lemma printAll_final d : final (printAll d) = d.
Proof. now rewrite printAll_run. Qed.

(** [addWorkType] throws nothing but the two classes it names. *)
Lemma addWorkType_thrown_kind name basePay bonusPercent d e :
  outcome (addWorkType name basePay bonusPercent d) = Thrown e ->
  kind e = DuplicateWorkType \/ kind e = InvalidRate.
Proof.
  unfold addWorkType. rewrite addWorkType_with_run. cbv zeta.
  unfold new_PercentageBonusStrategy, new_WorkTypeBase.
  repeat match goal with
         | |- context [if ?c then _ else _] => destruct c
         end; simpl; intros [= <-]; auto.
Qed.

Lemma addWorkType_duplicate name basePay bonusPercent d :
  In name (names d) ->
  fails_with DuplicateWorkType
    (outcome (addWorkType name basePay bonusPercent d)) /\
  final (addWorkType name basePay bonusPercent d) = d.
Proof.
  intros H. apply existsWorkType_in_iff in H.
  unfold addWorkType. rewrite addWorkType_with_run, H. simpl.
  split; [|reflexivity]. throws.
Qed.

(** C3. Every operation is all or nothing.  An [addWorkType] that throws,
    which it does with [DuplicateWorkTypeException] or
    [InvalidRateException] only, leaves the registry exactly as it was,
    and the two queries leave it as it was in any case.  In particular a
    second [addWorkType] under a name already stored, whatever its base pay
    and bonus, throws [DuplicateWorkTypeException] and keeps the stored
    sequence, first entry included: after an accepted call on the empty
    registry and a second call under the same name the registry has one
    entry, not two. *)
Theorem addWorkType_atomic :
  (forall name basePay bonusPercent d,
     succeeded (outcome (addWorkType name basePay bonusPercent d)) = false ->
     (fails_with DuplicateWorkType
        (outcome (addWorkType name basePay bonusPercent d)) \/
      fails_with InvalidRate
        (outcome (addWorkType name basePay bonusPercent d))) /\
     final (addWorkType name basePay bonusPercent d) = d) /\
  (forall d, final (calculateAveragePay d) = d /\ final (printAll d) = d) /\
  (forall name basePay bonusPercent d,
     In name (names d) ->
     fails_with DuplicateWorkType
       (outcome (addWorkType name basePay bonusPercent d)) /\
     final (addWorkType name basePay bonusPercent d) = d) /\
  (forall name basePay bonusPercent basePay' bonusPercent' d,
     outcome (addWorkType name basePay bonusPercent d) = Ok tt ->
     let d1 := final (addWorkType name basePay bonusPercent d) in
     let d2 := final (addWorkType name basePay' bonusPercent' d1) in
     fails_with DuplicateWorkType
       (outcome (addWorkType name basePay' bonusPercent' d1)) /\
     d2 = d1 /\
     List.length (workTypes d2) = S (List.length (workTypes d)) /\
     (d = new_PayrollDepartment -> List.length (workTypes d2) = 1%nat)).
Proof.
  split; [|split; [|split]].
  - intros name basePay bonusPercent d H. split.
    + destruct (outcome (addWorkType name basePay bonusPercent d))
        as [u|e] eqn:E; [discriminate|].
      destruct (addWorkType_thrown_kind _ _ _ _ _ E) as [K|K];
        [left | right]; exists e; auto.
    + now apply addWorkType_thrown_final.
  - intros d. split; [apply calculateAveragePay_final | apply printAll_final].
  - intros. now apply addWorkType_duplicate.
  - intros name basePay bonusPercent basePay' bonusPercent' d H d1 d2.
    destruct (addWorkType_ok_inv _ _ _ _ H) as (_ & _ & _ & _ & s & F & _).
    assert (Hin : In name (names d1)).
    { subst d1. rewrite F. unfold names. simpl. rewrite map_app.
      apply in_or_app. right. now left. }
    destruct (addWorkType_duplicate name basePay' bonusPercent' d1 Hin)
      as [Hdup Hsame].
    assert (Hlen : List.length (workTypes d2) = S (List.length (workTypes d))).
    { subst d2. rewrite Hsame. subst d1. rewrite F. simpl.
      rewrite length_app. simpl. lia. }
    repeat split; auto.
    intros ->. exact Hlen.
Qed.

Lemma addWorkType_atomic_witness :
  let d1 := final (addWorkType "Welder" 200 50 new_PayrollDepartment) in
  (succeeded (outcome (addWorkType "Welder" 300 0 d1)) = false /\
   In "Welder" (names d1) /\
   outcome (addWorkType "Welder" 200 50 new_PayrollDepartment) = Ok tt) /\
  fails_with DuplicateWorkType (outcome (addWorkType "Welder" 300 0 d1)) /\
  final (addWorkType "Welder" 300 0 d1) = d1 /\
  List.length (workTypes (final (addWorkType "Welder" 300 0 d1))) = 1%nat.
Proof.
  intros d1.
  destruct addWorkType_atomic as (Hthrown & _ & Hdup & Htwice).
  assert (H1 : succeeded (outcome (addWorkType "Welder" 300 0 d1)) = false)
    by reflexivity.
  assert (H2 : In "Welder" (names d1)) by (left; reflexivity).
  assert (H3 : outcome (addWorkType "Welder" 200 50 new_PayrollDepartment)
               = Ok tt) by reflexivity.
  split; [now repeat split|].
  split; [exact (proj1 (Hdup "Welder" 300%float 0%float d1 H2))|].
  split; [exact (proj2 (Hthrown "Welder" 300%float 0%float d1 H1))|].
  exact (proj2 (proj2 (proj2
    (Htwice "Welder" 200%float 50%float 300%float 0%float
       new_PayrollDepartment H3))) eq_refl).
Defined.

Lemma NoDup_snoc {A} (l : list A) (a : A) :
  NoDup l -> ~ In a l -> NoDup (l ++ [a]).
Proof.
  induction 1 as [|x l Hx Hl IH]; intros Ha; simpl.
  - constructor; [auto | constructor].
  - constructor.
    + intros Hin. apply in_app_or in Hin. destruct Hin as [Hin|[->|[]]].
      * contradiction.
      * apply Ha. now left.
    + apply IH. intros Hin. apply Ha. now right.
Qed.

Lemma perform_unique_names op d :
  unique_names d -> unique_names (perform op d).
Proof.
  intros Hd.
  destruct (perform_cases op d) as [-> | (n & b & p & s & _ & Hok & -> & _)];
    [exact Hd|].
  destruct (addWorkType_ok_inv _ _ _ _ Hok) as (Hnew & _).
  unfold unique_names, names. simpl. rewrite map_app. simpl.
  apply NoDup_snoc; [exact Hd|].
  intros Hin. apply existsWorkType_in_iff in Hin. congruence.
Qed.

(** C4. No two entries of the registry share a name, names being compared
    [char] by [char] (so that names differing in case are different).  The
    empty registry has the property and every operation preserves it, so
    that every registry a session reaches has it: [existsWorkType] answers
    whether the name is that of some stored entry, [addWorkType] throws
    [DuplicateWorkTypeException] when it is, and the other operations add
    nothing. *)
Theorem unique_names_invariant :
  unique_names new_PayrollDepartment /\
  (forall op d, unique_names d -> unique_names (perform op d)) /\
  (forall d, reachable d -> unique_names d) /\
  (forall name d,
     outcome (existsWorkType name d) = Ok true <->
     exists w, In w (workTypes d) /\ getName w = name) /\
  (forall name basePay bonusPercent d,
     In name (names d) ->
     fails_with DuplicateWorkType
       (outcome (addWorkType name basePay bonusPercent d))) /\
  (forall d, perform PrintAll d = d /\ perform CalculateAveragePay d = d) /\
  names (session [AddWorkType "Welder" 200 50; AddWorkType "welder" 200 50;
                  AddWorkType "Welder" 300 0] new_PayrollDepartment)
    = ["Welder"; "welder"].
Proof.
  split; [constructor|].
  split; [exact perform_unique_names|].
  split; [apply reachable_invariant; [constructor | exact perform_unique_names]|].
  split; [|split; [|split]].
  - intros name d. rewrite existsWorkType_run. cbn [outcome]. split.
    + intros [= H]. apply existsWorkType_in_iff, in_map_iff in H.
      destruct H as (w & Hw & Hin). now exists w.
    + intros (w & Hin & Hw). f_equal. apply existsWorkType_in_iff, in_map_iff.
      now exists w.
  - intros. now apply addWorkType_duplicate.
  - intros d. split; apply perform_query; auto.
  - reflexivity.
Qed.

Lemma unique_names_invariant_witness :
  let d := session sample_ops new_PayrollDepartment in
  (unique_names d /\ reachable d /\ In "Welder" (names d)) /\
  unique_names (perform (AddWorkType "Fitter" 150 10) d) /\
  fails_with DuplicateWorkType (outcome (addWorkType "Welder" 300 0 d)).
Proof.
  intros d.
  destruct unique_names_invariant as (_ & Hstep & Hreach & _ & Hdup & _).
  assert (Hr : reachable d) by (now exists sample_ops).
  assert (Hin : In "Welder" (names d)) by (right; left; reflexivity).
  pose proof (Hreach d Hr) as Hu.
  split; [now repeat split|].
  split; [exact (Hstep (AddWorkType "Fitter" 150 10) d Hu)|].
  exact (Hdup "Welder" 300%float 0%float d Hin).
Defined.

Lemma new_PercentageBonusStrategy_zero x :
  (x =? 0)%float = true ->
  new_PercentageBonusStrategy x = Ok (PercentageBonusStrategy x).
Proof. intros H. destruct (eqb_zero _ H) as [-> | ->]; reflexivity. Qed.

(** The constructor throws below zero and above one hundred, and accepts
    from zero to one hundred. *)
Lemma new_PercentageBonusStrategy_range percent :
  (fails_with InvalidRate (new_PercentageBonusStrategy percent) <->
   (percent <? 0)%float = true \/ (100 <? percent)%float = true) /\
  ((0 <=? percent)%float = true -> (percent <=? 100)%float = true ->
   new_PercentageBonusStrategy percent = Ok (PercentageBonusStrategy percent)).
Proof.
  unfold new_PercentageBonusStrategy. split.
  - destruct (percent <? 0)%float.
    + split; [auto | intros _; throws].
    + destruct (100 <? percent)%float.
      * split; [auto | intros _; throws].
      * split; [intros (e & [=] & _) | intros [|]; discriminate].
  - intros H0 H100. apply leb_not_ltb in H0, H100. now rewrite H0, H100.
Qed.

(** On numbers the constructor accepts the range from 0 to 100 and no
    more. *)
Lemma new_PercentageBonusStrategy_accepts percent :
  is_nan percent = false ->
  succeeded (new_PercentageBonusStrategy percent) = true <->
  (0 <=? percent)%float = true /\ (percent <=? 100)%float = true.
Proof.
  intros Hn. unfold new_PercentageBonusStrategy. split.
  - destruct (percent <? 0)%float eqn:E0; [discriminate|].
    destruct (100 <? percent)%float eqn:E100; [discriminate|].
    intros _. split; now apply not_ltb_leb.
  - intros [H0 H100]. apply leb_not_ltb in H0, H100. now rewrite H0, H100.
Qed.

(** With a fresh name and a base pay the work type accepts, [addWorkType]
    succeeds on exactly the bonus percents its strategy constructor
    accepts. *)
Lemma addWorkType_accepts name basePay bonusPercent d :
  existsWorkType_in (workTypes d) name = false ->
  empty name = false -> (basePay <=? 0)%float = false ->
  (1000000 <? basePay)%float = false ->
  outcome (addWorkType name basePay bonusPercent d) =
  match new_PercentageBonusStrategy bonusPercent with
  | Ok _ => Ok tt
  | Thrown e => Thrown e
  end.
Proof.
  intros Hfresh Hname Hpos Hmax.
  unfold addWorkType. rewrite addWorkType_with_run, Hfresh. cbv zeta.
  unfold new_WorkTypeBase. rewrite Hname, Hpos, Hmax.
  destruct (bonusPercent =? 0)%float eqn:E0.
  - now rewrite (new_PercentageBonusStrategy_zero _ E0).
  - unfold new_PercentageBonusStrategy.
    destruct (100 <? bonusPercent)%float eqn:E100.
    + now rewrite (ltb_sign_clear 100 bonusPercent eq_refl E100).
    + destruct (bonusPercent <? 0)%float; reflexivity.
Qed.

Lemma addWorkType_out_of_range name basePay bonusPercent d :
  existsWorkType_in (workTypes d) name = false ->
  (100 <? bonusPercent)%float = true \/ (bonusPercent <? 0)%float = true ->
  fails_with InvalidRate (outcome (addWorkType name basePay bonusPercent d)).
Proof.
  intros Hfresh H.
  unfold addWorkType. rewrite addWorkType_with_run, Hfresh. cbv zeta.
  assert (E0 : (bonusPercent =? 0)%float = false).
  { destruct H as [H|H]; [|now apply ltb_zero_neq_l].
    destruct (bonusPercent =? 0)%float eqn:E; [|reflexivity].
    destruct (eqb_zero _ E) as [-> | ->]; discriminate H. }
  rewrite E0. unfold new_PercentageBonusStrategy.
  destruct (100 <? bonusPercent)%float eqn:E100.
  - throws.
  - destruct H as [H|H]; [discriminate|]. rewrite H.
    throws.
Qed.

(** C5. Under a name the registry does not hold, and with a name and a base
    pay the work type accepts, [addWorkType] succeeds with a bonus of zero
    (binding the no-bonus strategy), with a bonus of 100, and with every
    bonus from 0 to 100.  Under any fresh name, a bonus above 100 (such as
    100.0001) or below 0 (such as -1) makes it throw
    [InvalidRateException]; above 100 the registry throws by itself, before
    the strategy is constructed, so that the constructor is not consulted.
    The constructor of the percentage strategy enforces the same range: it
    throws below 0 and above 100 and accepts from 0 to 100, which for every
    [double] that is a number makes 0 <= rate <= 100 what it accepts, and
    [addWorkType] succeeds on exactly the bonuses it accepts. *)
Theorem bonusPercent_range name basePay d :
  existsWorkType_in (workTypes d) name = false ->
  (empty name = false -> (basePay <=? 0)%float = false ->
   (1000000 <? basePay)%float = false ->
   (forall bonusPercent, (bonusPercent =? 0)%float = true ->
      addWorkType name basePay bonusPercent d =
      mkRun (advisory name) (Ok tt)
        (mkPayrollDepartment
           (workTypes d ++ [mkWorkTypeBase name basePay NoBonusStrategy]))) /\
   outcome (addWorkType name basePay 0 d) = Ok tt /\
   outcome (addWorkType name basePay 100 d) = Ok tt /\
   (forall bonusPercent,
      (0 <=? bonusPercent)%float = true ->
      (bonusPercent <=? 100)%float = true ->
      outcome (addWorkType name basePay bonusPercent d) = Ok tt) /\
   (forall bonusPercent,
      succeeded (outcome (addWorkType name basePay bonusPercent d)) =
      succeeded (new_PercentageBonusStrategy bonusPercent))) /\
  (forall bonusPercent,
     (100 <? bonusPercent)%float = true \/ (bonusPercent <? 0)%float = true ->
     fails_with InvalidRate
       (outcome (addWorkType name basePay bonusPercent d))) /\
  fails_with InvalidRate (outcome (addWorkType name basePay 100.0001 d)) /\
  fails_with InvalidRate (outcome (addWorkType name basePay (-1) d)) /\
  (forall new_strategy bonusPercent,
     (100 <? bonusPercent)%float = true ->
     addWorkType_with new_strategy name basePay bonusPercent d =
     mkRun (advisory name)
       (Thrown (InvalidRateException "bonus percent cannot exceed 100%")) d) /\
  (forall percent,
     (fails_with InvalidRate (new_PercentageBonusStrategy percent) <->
      (percent <? 0)%float = true \/ (100 <? percent)%float = true) /\
     ((0 <=? percent)%float = true -> (percent <=? 100)%float = true ->
      new_PercentageBonusStrategy percent
        = Ok (PercentageBonusStrategy percent)) /\
     (is_nan percent = false ->
      (succeeded (new_PercentageBonusStrategy percent) = true <->
       (0 <=? percent)%float = true /\ (percent <=? 100)%float = true))).
Proof.
  intros Hfresh.
  split; [|split; [|split; [|split; [|split]]]].
  - intros Hname Hpos Hmax.
    assert (Hin : forall p, (0 <=? p)%float = true -> (p <=? 100)%float = true ->
                  outcome (addWorkType name basePay p d) = Ok tt).
    { intros p H0 H100. rewrite addWorkType_accepts by assumption.
      destruct (new_PercentageBonusStrategy_range p) as [_ H].
      now rewrite H. }
    split; [|split; [|split; [|split]]].
    + intros p E0. unfold addWorkType.
      rewrite addWorkType_with_run, Hfresh, E0. cbv zeta.
      unfold new_WorkTypeBase. now rewrite Hname, Hpos, Hmax.
    + now apply Hin.
    + now apply Hin.
    + exact Hin.
    + intros p. rewrite addWorkType_accepts by assumption.
      now destruct (new_PercentageBonusStrategy p).
  - intros p. now apply addWorkType_out_of_range.
  - apply addWorkType_out_of_range; [assumption | now left].
  - apply addWorkType_out_of_range; [assumption | now right].
  - intros new_strategy p H.
    assert (E0 : (p =? 0)%float = false).
    { destruct (p =? 0)%float eqn:E; [|reflexivity].
      destruct (eqb_zero _ E) as [-> | ->]; discriminate H. }
    now rewrite addWorkType_with_run, Hfresh, E0, H.
  - intros percent.
    destruct (new_PercentageBonusStrategy_range percent) as [Hthrown Hok].
    split; [exact Hthrown|]. split; [exact Hok|].
    apply new_PercentageBonusStrategy_accepts.
Qed.

Lemma bonusPercent_range_witness :
  let d := session sample_ops new_PayrollDepartment in
  (existsWorkType_in (workTypes d) "Fitter" = false /\
   empty "Fitter" = false /\ (150 <=? 0)%float = false /\
   (1000000 <? 150)%float = false /\
   (0 <=? 12.5)%float = true /\ (12.5 <=? 100)%float = true /\
   (100 <? 250)%float = true /\ is_nan 250 = false) /\
  outcome (addWorkType "Fitter" 150 0 d) = Ok tt /\
  outcome (addWorkType "Fitter" 150 100 d) = Ok tt /\
  outcome (addWorkType "Fitter" 150 12.5 d) = Ok tt /\
  fails_with InvalidRate (outcome (addWorkType "Fitter" 150 250 d)) /\
  fails_with InvalidRate (outcome (addWorkType "Fitter" 150 100.0001 d)) /\
  fails_with InvalidRate (outcome (addWorkType "Fitter" 150 (-1) d)) /\
  new_PercentageBonusStrategy 12.5 = Ok (PercentageBonusStrategy 12.5) /\
  (succeeded (new_PercentageBonusStrategy 250) = true <->
   (0 <=? 250)%float = true /\ (250 <=? 100)%float = true).
Proof.
  intros d.
  assert (Hfresh : existsWorkType_in (workTypes d) "Fitter" = false)
    by reflexivity.
  assert (Hname : empty "Fitter" = false) by reflexivity.
  assert (Hpos : (150 <=? 0)%float = false) by reflexivity.
  assert (Hmax : (1000000 <? 150)%float = false) by reflexivity.
  assert (H0 : (0 <=? 12.5)%float = true) by reflexivity.
  assert (H100 : (12.5 <=? 100)%float = true) by reflexivity.
  assert (Hout : (100 <? 250)%float = true) by reflexivity.
  assert (Hnum : is_nan 250 = false) by reflexivity.
  destruct (bonusPercent_range "Fitter" 150%float d Hfresh)
    as (Hvalid & Hrange & Habove & Hbelow & _ & Hctor).
  destruct (Hvalid Hname Hpos Hmax) as (_ & Hzero & Hfull & Hin & _).
  split; [now repeat split|].
  split; [exact Hzero|]. split; [exact Hfull|].
  split; [exact (Hin 12.5%float H0 H100)|].
  split; [exact (Hrange 250%float (or_introl Hout))|].
  split; [exact Habove|]. split; [exact Hbelow|].
  split; [exact (proj1 (proj2 (Hctor 12.5%float)) H0 H100)|].
  exact (proj2 (proj2 (Hctor 250%float)) Hnum).
Defined.

(** The constructor of a work type throws on four conditions, and on
    nothing else. *)
Lemma new_WorkTypeBase_thrown name basePay strategy :
  fails_with InvalidRate (new_WorkTypeBase name basePay strategy) <->
  empty name = true \/ (basePay <=? 0)%float = true \/
  (1000000 <? basePay)%float = true \/ strategy = None.
Proof.
  unfold new_WorkTypeBase.
  destruct (empty name);
    [split; [auto | intros _; throws]|].
  destruct (basePay <=? 0)%float;
    [split; [auto | intros _; throws]|].
  destruct (1000000 <? basePay)%float;
    [split; [auto 6 | intros _; throws]|].
  destruct strategy as [s|];
    [|split; [auto 6 | intros _; throws]].
  split; [intros (e & [=] & _) | intros [|[|[|]]]; discriminate].
Qed.

Lemma addWorkType_structural name basePay bonusPercent d :
  existsWorkType_in (workTypes d) name = false ->
  empty name = true \/ (basePay <=? 0)%float = true \/
  (1000000 <? basePay)%float = true ->
  fails_with InvalidRate (outcome (addWorkType name basePay bonusPercent d)).
Proof.
  intros Hfresh H.
  assert (Hw : forall s, fails_with InvalidRate
                           (new_WorkTypeBase name basePay (Some s))).
  { intros s. apply new_WorkTypeBase_thrown. tauto. }
  unfold addWorkType. rewrite addWorkType_with_run, Hfresh. cbv zeta.
  unfold new_PercentageBonusStrategy.
  destruct (bonusPercent =? 0)%float.
  - destruct (Hw NoBonusStrategy) as (e & -> & K). now exists e.
  - destruct (100 <? bonusPercent)%float; [throws|].
    destruct (bonusPercent <? 0)%float; [throws|].
    destruct (Hw (PercentageBonusStrategy bonusPercent)) as (e & -> & K).
    now exists e.
Qed.

(** No stored name is empty, so the empty name is never a duplicate. *)
Lemma reachable_names_not_empty d :
  reachable d -> Forall (fun w => empty (getName w) = false) (workTypes d).
Proof.
  apply (reachable_invariant
           (fun d => Forall (fun w => empty (getName w) = false) (workTypes d))).
  - constructor.
  - intros op d' Hd'.
    destruct (perform_cases op d') as [-> | (n & b & p & s & _ & Hok & -> & _)];
      [exact Hd'|].
    destruct (addWorkType_ok_inv _ _ _ _ Hok) as (_ & Hn & _).
    simpl. apply Forall_app. split; [exact Hd'|].
    constructor; [exact Hn | constructor].
Qed.

Lemma empty_name_fresh d :
  reachable d -> existsWorkType_in (workTypes d) "" = false.
Proof.
  intros H. apply reachable_names_not_empty in H.
  induction H as [|w ws Hw _ IH]; [reflexivity|].
  simpl. destruct (getName w); [discriminate Hw | exact IH].
Qed.

(** C6. Constructing a work type throws [InvalidRateException] exactly when
    the name is empty, the base pay is at most 0 or above 1,000,000, or the
    strategy is null, and succeeds otherwise: an empty name is refused
    whatever the base pay and the strategy, base pays of 0, -5 and
    1,000,001 and a null strategy are refused, and a base pay of 1,000,000
    is accepted.  [addWorkType], which constructs the work type it stores,
    refuses the same names and base pays under any bonus and accepts a base
    pay of 1,000,000; in a session it refuses the empty name whatever the
    base pay and the bonus. *)
Theorem new_WorkTypeBase_validation name basePay strategy :
  (fails_with InvalidRate (new_WorkTypeBase name basePay strategy) <->
   empty name = true \/ (basePay <=? 0)%float = true \/
   (1000000 <? basePay)%float = true \/ strategy = None) /\
  (forall s,
     new_WorkTypeBase name basePay strategy = Ok (mkWorkTypeBase name basePay s)
     <-> empty name = false /\ (basePay <=? 0)%float = false /\
         (1000000 <? basePay)%float = false /\ strategy = Some s) /\
  fails_with InvalidRate (new_WorkTypeBase "" basePay strategy) /\
  fails_with InvalidRate (new_WorkTypeBase name 0 strategy) /\
  fails_with InvalidRate (new_WorkTypeBase name (-5) strategy) /\
  fails_with InvalidRate (new_WorkTypeBase name 1000001 strategy) /\
  fails_with InvalidRate (new_WorkTypeBase name basePay None) /\
  (forall s, empty name = false ->
     new_WorkTypeBase name 1000000 (Some s)
       = Ok (mkWorkTypeBase name 1000000 s)) /\
  (forall bonusPercent d,
     existsWorkType_in (workTypes d) name = false ->
     (empty name = true \/ (basePay <=? 0)%float = true \/
      (1000000 <? basePay)%float = true ->
      fails_with InvalidRate
        (outcome (addWorkType name basePay bonusPercent d))) /\
     fails_with InvalidRate (outcome (addWorkType name 0 bonusPercent d)) /\
     fails_with InvalidRate (outcome (addWorkType name (-5) bonusPercent d)) /\
     fails_with InvalidRate
       (outcome (addWorkType name 1000001 bonusPercent d)) /\
     (empty name = false ->
      (0 <=? bonusPercent)%float = true ->
      (bonusPercent <=? 100)%float = true ->
      outcome (addWorkType name 1000000 bonusPercent d) = Ok tt)) /\
  (forall bonusPercent d,
     reachable d ->
     fails_with InvalidRate (outcome (addWorkType "" basePay bonusPercent d))).
Proof.
  split; [apply new_WorkTypeBase_thrown|].
  split.
  { intros s. split.
    - intros H. apply new_WorkTypeBase_ok in H.
      destruct H as (Hn & Hl & Hu & s' & -> & [= ->]). auto.
    - intros (Hn & Hl & Hu & ->). unfold new_WorkTypeBase.
      now rewrite Hn, Hl, Hu. }
  split; [apply new_WorkTypeBase_thrown; now left|].
  split; [apply new_WorkTypeBase_thrown; right; now left|].
  split; [apply new_WorkTypeBase_thrown; right; now left|].
  split; [apply new_WorkTypeBase_thrown; right; right; now left|].
  split; [apply new_WorkTypeBase_thrown; now repeat right|].
  split.
  { intros s Hn. unfold new_WorkTypeBase. now rewrite Hn. }
  split.
  - intros bonusPercent d Hfresh.
    split; [now apply addWorkType_structural|].
    split; [apply addWorkType_structural; [assumption | right; now left]|].
    split; [apply addWorkType_structural; [assumption | right; now left]|].
    split; [apply addWorkType_structural; [assumption | right; now right]|].
    intros Hn H0 H100. rewrite addWorkType_accepts by easy.
    destruct (new_PercentageBonusStrategy_range bonusPercent) as [_ H].
    now rewrite H.
  - intros bonusPercent d Hd.
    apply addWorkType_structural; [now apply empty_name_fresh | now left].
Qed.

Lemma new_WorkTypeBase_validation_witness :
  let d := session sample_ops new_PayrollDepartment in
  (empty "Fitter" = false /\ (1000000 <=? 0)%float = false /\
   (1000000 <? 1000000)%float = false /\
   existsWorkType_in (workTypes d) "Fitter" = false /\
   reachable d /\
   (0 <=? 12.5)%float = true /\ (12.5 <=? 100)%float = true /\
   (1000000 <? 1000000.5)%float = true) /\
  new_WorkTypeBase "Fitter" 1000000 (Some NoBonusStrategy)
    = Ok (mkWorkTypeBase "Fitter" 1000000 NoBonusStrategy) /\
  fails_with InvalidRate
    (new_WorkTypeBase "Fitter" 1000000.5 (Some NoBonusStrategy)) /\
  outcome (addWorkType "Fitter" 1000000 12.5 d) = Ok tt /\
  fails_with InvalidRate (outcome (addWorkType "" 1000000 12.5 d)).
Proof.
  intros d.
  assert (Hn : empty "Fitter" = false) by reflexivity.
  assert (Hl : (1000000 <=? 0)%float = false) by reflexivity.
  assert (Hu : (1000000 <? 1000000)%float = false) by reflexivity.
  assert (Hf : existsWorkType_in (workTypes d) "Fitter" = false)
    by reflexivity.
  assert (He : reachable d) by (now exists sample_ops).
  assert (H0 : (0 <=? 12.5)%float = true) by reflexivity.
  assert (H100 : (12.5 <=? 100)%float = true) by reflexivity.
  assert (Hover : (1000000 <? 1000000.5)%float = true) by reflexivity.
  split; [now repeat split|].
  destruct (new_WorkTypeBase_validation "Fitter" 1000000%float
              (Some NoBonusStrategy))
    as (_ & Hok & _ & _ & _ & _ & _ & _ & Hadd & Hempty).
  destruct (new_WorkTypeBase_validation "Fitter" 1000000.5%float
              (Some NoBonusStrategy)) as (Hthrown & _).
  split; [exact (proj2 (Hok NoBonusStrategy)
                   (conj Hn (conj Hl (conj Hu eq_refl))))|].
  split; [exact (proj2 Hthrown (or_intror (or_intror (or_introl Hover))))|].
  split; [exact (proj2 (proj2 (proj2 (proj2 (Hadd 12.5%float d Hf))))
                   Hn H0 H100)|].
  exact (Hempty 12.5%float d He).
Defined.

Lemma listAll_added name basePay bonusPercent d :
  outcome (addWorkType name basePay bonusPercent d) = Ok tt ->
  listAll (final (addWorkType name basePay bonusPercent d)) =
  (listAll d ++ [(name, basePay, (basePay * (1 + bonusPercent / 100))%float)])%list.
Proof.
  intros H. destruct (addWorkType_appends _ _ _ _ H) as (w & Hw & Ht).
  unfold listAll. rewrite Hw, map_app. simpl. now rewrite Ht.
Qed.

(** C7. [printAll], the listing operation, never throws.  On the empty
    registry it writes the notice that the list is empty, which is no
    listing, and nothing else; otherwise it writes a header and then, for
    every stored entry in the order of insertion, one line with the entry's
    name, base pay and final pay.  After one accepted [addWorkType] on the
    empty registry the listing is the one triple of the values added. *)
Theorem printAll_lists d :
  outcome (printAll d) = Ok tt /\
  (workTypes d = [] <-> trace (printAll d) = [Cout empty_list_notice]) /\
  (workTypes d <> [] ->
   trace (printAll d) = Cout list_header :: flat_map line (listAll d)) /\
  listAll d
    = map (fun w => (getName w, getBasePay w, getFinalPay w)) (workTypes d) /\
  (forall name basePay bonusPercent,
     outcome (addWorkType name basePay bonusPercent d) = Ok tt ->
     listAll (final (addWorkType name basePay bonusPercent d)) =
     (listAll d ++
      [(name, basePay, (basePay * (1 + bonusPercent / 100))%float)])%list) /\
  (forall name basePay bonusPercent,
     outcome (addWorkType name basePay bonusPercent new_PayrollDepartment)
       = Ok tt ->
     let d1 := final (addWorkType name basePay bonusPercent
                        new_PayrollDepartment) in
     listAll d1 = [(name, basePay, (basePay * (1 + bonusPercent / 100))%float)]
     /\
     trace (printAll d1) =
       Cout list_header ::
       line (name, basePay, (basePay * (1 + bonusPercent / 100))%float)).
Proof.
  rewrite printAll_run. cbn [outcome trace].
  split; [reflexivity|].
  split; [|split; [|split; [|split]]].
  - destruct (workTypes d) as [|w rest]; split; try reflexivity; discriminate.
  - destruct (workTypes d) as [|w rest]; [congruence | reflexivity].
  - reflexivity.
  - intros. now apply listAll_added.
  - intros name basePay bonusPercent H.
    set (d1 := final (addWorkType name basePay bonusPercent
                        new_PayrollDepartment)).
    assert (L : listAll d1 =
                [(name, basePay, (basePay * (1 + bonusPercent / 100))%float)]).
    { subst d1. now rewrite listAll_added. }
    split; [exact L|].
    rewrite printAll_run. cbn [trace]. rewrite L.
    destruct (workTypes d1) eqn:E.
    + unfold listAll in L. rewrite E in L. discriminate.
    + reflexivity.
Qed.

Lemma printAll_lists_witness :
  let d := session sample_ops new_PayrollDepartment in
  (workTypes d <> [] /\
   outcome (addWorkType "Fitter" 150 10 new_PayrollDepartment) = Ok tt) /\
  trace (printAll d) =
    Cout list_header ::
    (line ("Loader", 100%float, 100%float) ++
     line ("Welder", 200%float, 300%float))%list /\
  listAll (final (addWorkType "Fitter" 150 10 new_PayrollDepartment))
    = [("Fitter", 150%float, 165%float)].
Proof.
  intros d.
  assert (Hne : workTypes d <> []) by discriminate.
  assert (Hok : outcome (addWorkType "Fitter" 150 10 new_PayrollDepartment)
                = Ok tt) by reflexivity.
  split; [now split|].
  destruct (printAll_lists d) as (_ & _ & Hlist & _).
  destruct (printAll_lists new_PayrollDepartment) as (_ & _ & _ & _ & _ & Hone).
  split; [exact (Hlist Hne)|].
  exact (proj1 (Hone "Fitter" 150%float 10%float Hok)).
Defined.

Lemma session_extends ops d :
  exists added, workTypes (session ops d) = (workTypes d ++ added)%list.
Proof.
  revert d. induction ops as [|op ops IH]; intros d.
  - exists []. simpl. now rewrite app_nil_r.
  - simpl. destruct (IH (perform op d)) as [added ->].
    destruct (perform_cases op d) as [-> | (n & b & p & s & _ & _ & -> & _)].
    + now exists added.
    + simpl. rewrite <- app_assoc. now eexists.
Qed.

(** C8. The number of entries never goes down.  Over any sequence of
    operations the registry keeps the entries it had, in their places, and
    may only have more after them.  An accepted [addWorkType] appends
    exactly one entry, taking the count from N to N + 1; every other turn
    (a query, or an [addWorkType] that throws) leaves the registry as it
    was. *)
Theorem registry_grows ops d :
  (List.length (workTypes d) <= List.length (workTypes (session ops d)))%nat /\
  (exists added, workTypes (session ops d) = (workTypes d ++ added)%list) /\
  (forall name basePay bonusPercent,
     outcome (addWorkType name basePay bonusPercent d) = Ok tt ->
     (exists w,
        workTypes (final (addWorkType name basePay bonusPercent d))
          = (workTypes d ++ [w])%list) /\
     List.length (workTypes (final (addWorkType name basePay bonusPercent d)))
       = S (List.length (workTypes d))) /\
  (forall name basePay bonusPercent,
     succeeded (outcome (addWorkType name basePay bonusPercent d)) = false ->
     final (addWorkType name basePay bonusPercent d) = d) /\
  final (printAll d) = d /\ final (calculateAveragePay d) = d /\
  (forall op,
     perform op d = d \/
     exists w, workTypes (perform op d) = (workTypes d ++ [w])%list).
Proof.
  destruct (session_extends ops d) as [added E].
  split; [rewrite E, length_app; lia|].
  split; [now exists added|].
  split; [|split; [|split; [|split]]].
  - intros name basePay bonusPercent H.
    destruct (addWorkType_appends _ _ _ _ H) as (w & Hw & _).
    split; [now exists w|]. rewrite Hw, length_app. simpl. lia.
  - intros. now apply addWorkType_thrown_final.
  - apply printAll_final.
  - apply calculateAveragePay_final.
  - intros op.
    destruct (perform_cases op d) as [-> | (n & b & p & s & _ & _ & -> & _)];
      [now left | right; now eexists].
Qed.

Lemma registry_grows_witness :
  let d := session sample_ops new_PayrollDepartment in
  (outcome (addWorkType "Fitter" 150 10 d) = Ok tt /\
   succeeded (outcome (addWorkType "Welder" 150 10 d)) = false) /\
  List.length (workTypes (final (addWorkType "Fitter" 150 10 d)))
    = S (List.length (workTypes d)) /\
  final (addWorkType "Welder" 150 10 d) = d.
Proof.
  intros d.
  assert (Hok : outcome (addWorkType "Fitter" 150 10 d) = Ok tt)
    by reflexivity.
  assert (Hno : succeeded (outcome (addWorkType "Welder" 150 10 d)) = false)
    by reflexivity.
  destruct (registry_grows [] d) as (_ & _ & Hadd & Hkeep & _).
  split; [now split|].
  split; [exact (proj2 (Hadd "Fitter" 150%float 10%float Hok))|].
  exact (Hkeep "Welder" 150%float 10%float Hno).
Defined.

(** C9. [addWorkType] writes the long-name advisory on [cerr] if and only
    if the name has more than 50 [char]s, and writes nothing else.  It does
    so first: the advisory is out whether the call then throws
    [DuplicateWorkTypeException], throws [InvalidRateException] or stores
    the entry. *)
Theorem long_name_advisory name basePay bonusPercent d :
  (In (Cerr long_name_warning) (trace (addWorkType name basePay bonusPercent d))
   <-> (50 < String.length name)%nat) /\
  trace (addWorkType name basePay bonusPercent d)
    = (if (50 <? String.length name)%nat then [Cerr long_name_warning] else []) /\
  ((50 < String.length name)%nat ->
   forall e, outcome (addWorkType name basePay bonusPercent d) = Thrown e ->
   addWorkType name basePay bonusPercent d
     = mkRun [Cerr long_name_warning] (Thrown e) d) /\
  String.length long_name = 51%nat /\
  (let d1 := final (addWorkType long_name 200 50 new_PayrollDepartment) in
   addWorkType long_name 200 50 new_PayrollDepartment
     = mkRun [Cerr long_name_warning] (Ok tt) d1 /\
   fails_with DuplicateWorkType (outcome (addWorkType long_name 300 0 d1)) /\
   trace (addWorkType long_name 300 0 d1) = [Cerr long_name_warning]) /\
  fails_with InvalidRate
    (outcome (addWorkType long_name 0 50 new_PayrollDepartment)) /\
  trace (addWorkType long_name 0 50 new_PayrollDepartment)
    = [Cerr long_name_warning] /\
  fails_with InvalidRate
    (outcome (addWorkType long_name 200 250 new_PayrollDepartment)) /\
  trace (addWorkType long_name 200 250 new_PayrollDepartment)
    = [Cerr long_name_warning] /\
  String.length name_of_50 = 50%nat /\
  addWorkType name_of_50 200 50 new_PayrollDepartment
    = mkRun [] (Ok tt)
        (mkPayrollDepartment
           [mkWorkTypeBase name_of_50 200 (PercentageBonusStrategy 50)]).
Proof.
  assert (T : trace (addWorkType name basePay bonusPercent d) = advisory name)
    by apply addWorkType_trace.
  split; [|split; [|split]].
  - rewrite T. unfold advisory.
    destruct (Nat.ltb_spec 50 (String.length name)) as [L|L].
    + split; [auto | intros _; now left].
    + split; [intros [] | lia].
  - exact T.
  - intros L e He.
    assert (F : final (addWorkType name basePay bonusPercent d) = d).
    { apply addWorkType_thrown_final.
      change (succeeded (outcome (addWorkType name basePay bonusPercent d))
              = false).
      now rewrite He. }
    apply Nat.ltb_lt in L. unfold advisory in T. rewrite L in T.
    destruct (addWorkType name basePay bonusPercent d) as [t o f].
    simpl in *. now subst.
  - repeat split; try reflexivity; throws.
Qed.

Lemma long_name_advisory_witness :
  let d1 := final (addWorkType long_name 200 50 new_PayrollDepartment) in
  ((50 < String.length long_name)%nat /\
   outcome (addWorkType long_name 300 0 d1)
     = Thrown (DuplicateWorkTypeException
                 ("work type '" ++ long_name ++ "' already exists"))) /\
  addWorkType long_name 300 0 d1
    = mkRun [Cerr long_name_warning]
        (Thrown (DuplicateWorkTypeException
                   ("work type '" ++ long_name ++ "' already exists"))) d1.
Proof.
  intros d1.
  assert (L : (50 < String.length long_name)%nat) by (simpl; lia).
  assert (E : outcome (addWorkType long_name 300 0 d1)
              = Thrown (DuplicateWorkTypeException
                          ("work type '" ++ long_name ++ "' already exists")))
    by reflexivity.
  split; [now split|].
  exact (proj1 (proj2 (proj2 (long_name_advisory long_name 300 0 d1))) L _ E).
Defined.

(** C10. The two queries do not touch the registry: after
    [calculateAveragePay], whether it returns or throws, and after
    [printAll], the registry is the one it was, with the same entries
    (names, base pays and strategies) in the same order. *)
Theorem queries_keep_registry d :
  final (calculateAveragePay d) = d /\
  final (printAll d) = d /\
  workTypes (final (calculateAveragePay d)) = workTypes d /\
  workTypes (final (printAll d)) = workTypes d /\
  (forall e, outcome (calculateAveragePay d) = Thrown e ->
             final (calculateAveragePay d) = d) /\
  (forall x, outcome (calculateAveragePay d) = Ok x ->
             final (calculateAveragePay d) = d) /\
  perform CalculateAveragePay d = d /\ perform PrintAll d = d.
Proof.
  rewrite printAll_final, calculateAveragePay_final.
  repeat split; auto; cbn [perform].
  - apply calculateAveragePay_final.
  - apply printAll_final.
Qed.

Lemma queries_keep_registry_witness :
  let d := session sample_ops new_PayrollDepartment in
  (outcome (calculateAveragePay d) = Ok 200%float /\
   outcome (calculateAveragePay new_PayrollDepartment)
     = Thrown (EmptyWorkListException "cannot calculate average")) /\
  final (calculateAveragePay d) = d /\
  final (calculateAveragePay new_PayrollDepartment) = new_PayrollDepartment.
Proof.
  intros d.
  assert (Hok : outcome (calculateAveragePay d) = Ok 200%float)
    by reflexivity.
  assert (Hno : outcome (calculateAveragePay new_PayrollDepartment)
                = Thrown (EmptyWorkListException "cannot calculate average"))
    by reflexivity.
  split; [now split|].
  split.
  - exact (proj1 (proj2 (proj2 (proj2 (proj2 (proj2
             (queries_keep_registry d)))))) _ Hok).
  - exact (proj1 (proj2 (proj2 (proj2 (proj2
             (queries_keep_registry new_PayrollDepartment))))) _ Hno).
Defined.

(** * Remark: inputs that are not numbers

    A [NaN] is below nothing and above nothing, so none of the comparisons
    above refuses it.  The shell cannot produce one, since it parses digits
    and a decimal point only, but a direct caller of the registry can. *)
Remark nan_is_not_refused :
  new_PercentageBonusStrategy nan = Ok (PercentageBonusStrategy nan) /\
  new_WorkTypeBase "Welder" nan (Some NoBonusStrategy)
    = Ok (mkWorkTypeBase "Welder" nan NoBonusStrategy) /\
  outcome (addWorkType "Welder" nan nan new_PayrollDepartment) = Ok tt.
Proof. repeat split. Qed.
